(** * websocketpp/connection.hpp: the per-connection WebSocket state machine

    The header declares the [connection<config>] class template, its
    enumerations, the list of supported protocol versions, the default
    [handler] bundle and the constructor.  The bodies of the remaining member
    functions live in [websocketpp/impl/connection_impl.hpp]; where a
    definition below stands for one of those bodies its comment says so and
    names the declaration it belongs to.

    Every member function is a transformer of the [connection] record.  The
    two mutexes ([m_connection_state_lock], [m_write_lock]) that make the
    transformers indivisible in the C++ are not represented: one application
    of a transformer is one step. *)

From Stdlib Require Import ZArith List String Ascii Bool Lia DecimalString Sorted.
Import ListNotations.

Local Open Scope string_scope.
Local Open Scope list_scope.
Local Open Scope Z_scope.

(** ** Enumerations (connection.hpp, namespace [session]) *)

Module session.

Module state.
(** Externally visible session state (states based on the RFC). *)
Inductive value : Set := CONNECTING | OPEN | CLOSING | CLOSED.

Definition to_Z (v : value) : Z :=
  match v with CONNECTING => 0 | OPEN => 1 | CLOSING => 2 | CLOSED => 3 end.

Definition eqb (a b : value) : bool := to_Z a =? to_Z b.
End state.

Module fail.
Module status.
Inductive value : Set :=
  GOOD | SYSTEM | WEBSOCKET | UNKNOWN | TIMEOUT_TLS | TIMEOUT_WS.

Definition to_Z (v : value) : Z :=
  match v with
  | GOOD => 0 | SYSTEM => 1 | WEBSOCKET => 2
  | UNKNOWN => 3 | TIMEOUT_TLS => 4 | TIMEOUT_WS => 5
  end.
End status.
End fail.

Module internal_state.
(** More granular internal states. *)
Inductive value : Set :=
| USER_INIT | TRANSPORT_INIT | READ_HTTP_REQUEST | WRITE_HTTP_REQUEST
| READ_HTTP_RESPONSE | WRITE_HTTP_RESPONSE | PROCESS_HTTP_REQUEST
| PROCESS_CONNECTION.

Definition to_Z (v : value) : Z :=
  match v with
  | USER_INIT => 0 | TRANSPORT_INIT => 1 | READ_HTTP_REQUEST => 2
  | WRITE_HTTP_REQUEST => 3 | READ_HTTP_RESPONSE => 4
  | WRITE_HTTP_RESPONSE => 5 | PROCESS_HTTP_REQUEST => 6
  | PROCESS_CONNECTION => 7
  end.

Definition eqb (a b : value) : bool := to_Z a =? to_Z b.
End internal_state.

End session.

Import session.

Definition istate_type := internal_state.value.

(** ** Supported protocol versions (connection.hpp, lines 56-62)

    Both branches of the [#ifdef] build the same vector. *)

Definition HELPER : list Z := [0; 7; 8; 13].

Definition VERSIONS_SUPPORTED : list Z := firstn 4 HELPER.

(** ** Words of the machine *)

(** [size_t] on an LP64 target: 64 bits, arithmetic modulo [2^64]. *)
Definition SIZE_MODULUS : Z := 2 ^ 64.

Definition size_t_wrap (n : Z) : Z := n mod SIZE_MODULUS.

(** [lib::error_code]: zero on success, non-zero otherwise. *)
Definition error_code := Z.

Definition ec_failed (ec : error_code) : bool := negb (ec =? 0).

(** ** Messages and handlers *)

Module frame.
Module opcode.
(** Modelled from the spec: [frame.hpp] is not part of the sources; the
    spec names TEXT and BINARY as data opcodes and PING, PONG and CLOSE as
    control opcodes. *)
Inductive value : Set := TEXT | BINARY | CLOSE | PING | PONG.

Definition is_control (op : value) : bool :=
  match op with TEXT | BINARY => false | _ => true end.
End opcode.
End frame.

Import frame.

(** Modelled from the spec: [config::message_type] is not part of the
    sources.  "A message carries an opcode, a payload, and a prepared flag";
    [terminal] is the flag [send_close_frame] receives and
    [handle_write_frame] gets back as its [terminate] argument. *)
Record message : Set := mk_message {
  get_opcode : opcode.value;
  get_payload : string;
  get_prepared : bool;
  get_terminal : bool
}.

Definition payload_size (m : message) : Z := Z.of_nat (String.length (get_payload m)).

(** A [handler_ptr] is identified by the address it holds. *)
Definition handler_ptr := nat.

(** The virtual member functions of [connection::handler]. *)
Inductive callback : Set :=
| cb_http
| cb_validate
| cb_on_inturrupt
| cb_on_open
| cb_on_fail
| cb_on_message (msg : message)
| cb_on_close
| cb_on_ping (payload : string)
| cb_on_pong (payload : string)
| cb_on_pong_timeout (payload : string)
| cb_on_load (old_handler : option handler_ptr)
| cb_on_unload (new_handler : handler_ptr).

(** What a connection does to its surroundings, in the order it does it:
    calls made through [m_handler] (recorded with the pointer value the call
    went through), buffers handed to the transport, and transport control. *)
Inductive effect : Set :=
| eff_call (target : option handler_ptr) (cb : callback)
| eff_transport_write (msg : message)
| eff_transport_write_http (status_code : Z)
| eff_transport_interrupt
| eff_transport_shutdown
| eff_termination_handler.

(** ** HTTP response (only what the connection sets) *)

Record response_type : Set := mk_response {
  get_status_code : Z;
  get_headers : list (string * string)
}.

(** ** The connection object (connection.hpp, lines 694-785)

    Scalar members the constructor leaves out of its initialiser list hold an
    indeterminate value until first assigned: [None]. *)

Record connection : Set := mk_connection {
  m_user_agent : string;
  m_handler : option handler_ptr;
  m_state : state.value;
  m_internal_state : istate_type;
  m_processor : option Z;
  m_send_queue : list message;
  m_send_buffer_size : Z;
  m_send_buffer : option message;
  m_response : response_type;
  m_is_server : bool;
  m_local_close_code : option Z;
  m_local_close_reason : string;
  m_remote_close_code : option Z;
  m_remote_close_reason : string;
  m_closed_by_me : option bool;
  m_failed_by_me : option bool;
  m_dropped_by_me : option bool;
  (* not members of the class: timers owned by the transport, tasks posted to
     it, and the record of effects *)
  pong_timer : option string;
  close_timer : bool;
  pending_interrupts : nat;
  log : list effect
}.

(** ** Constructor (connection.hpp, lines 175-185)

    [cout] is the content of standard output when the body runs; the body
    appends its line and [std::endl]. *)

Definition endl : string := String (ascii_of_nat 10) EmptyString.

Definition connection_ctor (is_server : bool) (ua : string) (cout : string)
  : connection * string :=
  ({| m_user_agent := ua;
      m_handler := None;
      m_state := state.CONNECTING;
      m_internal_state := internal_state.USER_INIT;
      m_processor := None;
      m_send_queue := [];
      m_send_buffer_size := 0;
      m_send_buffer := None;
      m_response := mk_response 0 [];
      m_is_server := is_server;
      m_local_close_code := None;
      m_local_close_reason := "";
      m_remote_close_code := None;
      m_remote_close_reason := "";
      m_closed_by_me := None;
      m_failed_by_me := None;
      m_dropped_by_me := None;
      pong_timer := None;
      close_timer := false;
      pending_interrupts := 0;
      log := [] |},
   (cout ++ "connection constructor" ++ endl)%string).

(** ** Assignments to one member

    [m_user_agent] and [m_is_server] are declared [const]: they have no
    assignment. *)

Definition set_m_handler (v : option handler_ptr) (c : connection) : connection :=
  mk_connection (m_user_agent c) v (m_state c) (m_internal_state c)
    (m_processor c) (m_send_queue c) (m_send_buffer_size c) (m_send_buffer c)
    (m_response c) (m_is_server c) (m_local_close_code c)
    (m_local_close_reason c) (m_remote_close_code c) (m_remote_close_reason c)
    (m_closed_by_me c) (m_failed_by_me c) (m_dropped_by_me c) (pong_timer c)
    (close_timer c) (pending_interrupts c) (log c).

Definition set_m_state (v : state.value) (c : connection) : connection :=
  mk_connection (m_user_agent c) (m_handler c) v (m_internal_state c)
    (m_processor c) (m_send_queue c) (m_send_buffer_size c) (m_send_buffer c)
    (m_response c) (m_is_server c) (m_local_close_code c)
    (m_local_close_reason c) (m_remote_close_code c) (m_remote_close_reason c)
    (m_closed_by_me c) (m_failed_by_me c) (m_dropped_by_me c) (pong_timer c)
    (close_timer c) (pending_interrupts c) (log c).

Definition set_m_internal_state (v : istate_type) (c : connection) : connection :=
  mk_connection (m_user_agent c) (m_handler c) (m_state c) v (m_processor c)
    (m_send_queue c) (m_send_buffer_size c) (m_send_buffer c) (m_response c)
    (m_is_server c) (m_local_close_code c) (m_local_close_reason c)
    (m_remote_close_code c) (m_remote_close_reason c) (m_closed_by_me c)
    (m_failed_by_me c) (m_dropped_by_me c) (pong_timer c) (close_timer c)
    (pending_interrupts c) (log c).

Definition set_m_processor (v : option Z) (c : connection) : connection :=
  mk_connection (m_user_agent c) (m_handler c) (m_state c)
    (m_internal_state c) v (m_send_queue c) (m_send_buffer_size c)
    (m_send_buffer c) (m_response c) (m_is_server c) (m_local_close_code c)
    (m_local_close_reason c) (m_remote_close_code c) (m_remote_close_reason c)
    (m_closed_by_me c) (m_failed_by_me c) (m_dropped_by_me c) (pong_timer c)
    (close_timer c) (pending_interrupts c) (log c).

Definition set_m_send_queue (v : list message) (c : connection) : connection :=
  mk_connection (m_user_agent c) (m_handler c) (m_state c)
    (m_internal_state c) (m_processor c) v (m_send_buffer_size c)
    (m_send_buffer c) (m_response c) (m_is_server c) (m_local_close_code c)
    (m_local_close_reason c) (m_remote_close_code c) (m_remote_close_reason c)
    (m_closed_by_me c) (m_failed_by_me c) (m_dropped_by_me c) (pong_timer c)
    (close_timer c) (pending_interrupts c) (log c).

Definition set_m_send_buffer_size (v : Z) (c : connection) : connection :=
  mk_connection (m_user_agent c) (m_handler c) (m_state c)
    (m_internal_state c) (m_processor c) (m_send_queue c) v (m_send_buffer c)
    (m_response c) (m_is_server c) (m_local_close_code c)
    (m_local_close_reason c) (m_remote_close_code c) (m_remote_close_reason c)
    (m_closed_by_me c) (m_failed_by_me c) (m_dropped_by_me c) (pong_timer c)
    (close_timer c) (pending_interrupts c) (log c).

Definition set_m_send_buffer (v : option message) (c : connection) : connection :=
  mk_connection (m_user_agent c) (m_handler c) (m_state c)
    (m_internal_state c) (m_processor c) (m_send_queue c)
    (m_send_buffer_size c) v (m_response c) (m_is_server c)
    (m_local_close_code c) (m_local_close_reason c) (m_remote_close_code c)
    (m_remote_close_reason c) (m_closed_by_me c) (m_failed_by_me c)
    (m_dropped_by_me c) (pong_timer c) (close_timer c) (pending_interrupts c)
    (log c).

Definition set_m_response (v : response_type) (c : connection) : connection :=
  mk_connection (m_user_agent c) (m_handler c) (m_state c)
    (m_internal_state c) (m_processor c) (m_send_queue c)
    (m_send_buffer_size c) (m_send_buffer c) v (m_is_server c)
    (m_local_close_code c) (m_local_close_reason c) (m_remote_close_code c)
    (m_remote_close_reason c) (m_closed_by_me c) (m_failed_by_me c)
    (m_dropped_by_me c) (pong_timer c) (close_timer c) (pending_interrupts c)
    (log c).

Definition set_m_local_close_code (v : option Z) (c : connection) : connection :=
  mk_connection (m_user_agent c) (m_handler c) (m_state c)
    (m_internal_state c) (m_processor c) (m_send_queue c)
    (m_send_buffer_size c) (m_send_buffer c) (m_response c) (m_is_server c) v
    (m_local_close_reason c) (m_remote_close_code c) (m_remote_close_reason c)
    (m_closed_by_me c) (m_failed_by_me c) (m_dropped_by_me c) (pong_timer c)
    (close_timer c) (pending_interrupts c) (log c).

Definition set_m_local_close_reason (v : string) (c : connection) : connection :=
  mk_connection (m_user_agent c) (m_handler c) (m_state c)
    (m_internal_state c) (m_processor c) (m_send_queue c)
    (m_send_buffer_size c) (m_send_buffer c) (m_response c) (m_is_server c)
    (m_local_close_code c) v (m_remote_close_code c) (m_remote_close_reason c)
    (m_closed_by_me c) (m_failed_by_me c) (m_dropped_by_me c) (pong_timer c)
    (close_timer c) (pending_interrupts c) (log c).

Definition set_m_remote_close_code (v : option Z) (c : connection) : connection :=
  mk_connection (m_user_agent c) (m_handler c) (m_state c)
    (m_internal_state c) (m_processor c) (m_send_queue c)
    (m_send_buffer_size c) (m_send_buffer c) (m_response c) (m_is_server c)
    (m_local_close_code c) (m_local_close_reason c) v
    (m_remote_close_reason c) (m_closed_by_me c) (m_failed_by_me c)
    (m_dropped_by_me c) (pong_timer c) (close_timer c) (pending_interrupts c)
    (log c).

Definition set_m_remote_close_reason (v : string) (c : connection) : connection :=
  mk_connection (m_user_agent c) (m_handler c) (m_state c)
    (m_internal_state c) (m_processor c) (m_send_queue c)
    (m_send_buffer_size c) (m_send_buffer c) (m_response c) (m_is_server c)
    (m_local_close_code c) (m_local_close_reason c) (m_remote_close_code c) v
    (m_closed_by_me c) (m_failed_by_me c) (m_dropped_by_me c) (pong_timer c)
    (close_timer c) (pending_interrupts c) (log c).

Definition set_m_closed_by_me (v : option bool) (c : connection) : connection :=
  mk_connection (m_user_agent c) (m_handler c) (m_state c)
    (m_internal_state c) (m_processor c) (m_send_queue c)
    (m_send_buffer_size c) (m_send_buffer c) (m_response c) (m_is_server c)
    (m_local_close_code c) (m_local_close_reason c) (m_remote_close_code c)
    (m_remote_close_reason c) v (m_failed_by_me c) (m_dropped_by_me c)
    (pong_timer c) (close_timer c) (pending_interrupts c) (log c).

Definition set_m_dropped_by_me (v : option bool) (c : connection) : connection :=
  mk_connection (m_user_agent c) (m_handler c) (m_state c)
    (m_internal_state c) (m_processor c) (m_send_queue c)
    (m_send_buffer_size c) (m_send_buffer c) (m_response c) (m_is_server c)
    (m_local_close_code c) (m_local_close_reason c) (m_remote_close_code c)
    (m_remote_close_reason c) (m_closed_by_me c) (m_failed_by_me c) v
    (pong_timer c) (close_timer c) (pending_interrupts c) (log c).

Definition set_pong_timer (v : option string) (c : connection) : connection :=
  mk_connection (m_user_agent c) (m_handler c) (m_state c)
    (m_internal_state c) (m_processor c) (m_send_queue c)
    (m_send_buffer_size c) (m_send_buffer c) (m_response c) (m_is_server c)
    (m_local_close_code c) (m_local_close_reason c) (m_remote_close_code c)
    (m_remote_close_reason c) (m_closed_by_me c) (m_failed_by_me c)
    (m_dropped_by_me c) v (close_timer c) (pending_interrupts c) (log c).

Definition set_close_timer (v : bool) (c : connection) : connection :=
  mk_connection (m_user_agent c) (m_handler c) (m_state c)
    (m_internal_state c) (m_processor c) (m_send_queue c)
    (m_send_buffer_size c) (m_send_buffer c) (m_response c) (m_is_server c)
    (m_local_close_code c) (m_local_close_reason c) (m_remote_close_code c)
    (m_remote_close_reason c) (m_closed_by_me c) (m_failed_by_me c)
    (m_dropped_by_me c) (pong_timer c) v (pending_interrupts c) (log c).

Definition set_pending_interrupts (v : nat) (c : connection) : connection :=
  mk_connection (m_user_agent c) (m_handler c) (m_state c)
    (m_internal_state c) (m_processor c) (m_send_queue c)
    (m_send_buffer_size c) (m_send_buffer c) (m_response c) (m_is_server c)
    (m_local_close_code c) (m_local_close_reason c) (m_remote_close_code c)
    (m_remote_close_reason c) (m_closed_by_me c) (m_failed_by_me c)
    (m_dropped_by_me c) (pong_timer c) (close_timer c) v (log c).

Definition set_log (v : list effect) (c : connection) : connection :=
  mk_connection (m_user_agent c) (m_handler c) (m_state c)
    (m_internal_state c) (m_processor c) (m_send_queue c)
    (m_send_buffer_size c) (m_send_buffer c) (m_response c) (m_is_server c)
    (m_local_close_code c) (m_local_close_reason c) (m_remote_close_code c)
    (m_remote_close_reason c) (m_closed_by_me c) (m_failed_by_me c)
    (m_dropped_by_me c) (pong_timer c) (close_timer c) (pending_interrupts c)
    v.


(** ** Exceptions

    A member function that throws leaves through [thrown] with the message
    of the exception; the object is as it was when the function was entered. *)

Inductive result (A : Type) : Type :=
| ok (a : A)
| thrown (what : string).

Arguments ok {A} a.
Arguments thrown {A} what.

Definition or_unchanged (c : connection) (r : result connection) : connection :=
  match r with ok c' => c' | thrown _ => c end.

(** ** State controller (connection.hpp, lines 566-603)

    Modelled from the spec: the bodies of the three primitives are in
    connection_impl.hpp; the model follows their documentation in the header
    ("If the internal state does not match req an exception is thrown",
    "dest The state to change to", "msg The message to include in the
    exception thrown") and section 4.1 of the spec. *)

Definition atomic_state_check (req : istate_type) (msg : string)
    (c : connection) : result connection :=
  if internal_state.eqb (m_internal_state c) req then ok c else thrown msg.

Definition atomic_state_change (req dest : istate_type) (msg : string)
    (c : connection) : result connection :=
  if internal_state.eqb (m_internal_state c) req
  then ok (set_m_internal_state dest c)
  else thrown msg.

Definition atomic_state_change_both (ireq idest : istate_type)
    (ereq edest : state.value) (msg : string) (c : connection)
  : result connection :=
  if internal_state.eqb (m_internal_state c) ireq
     && state.eqb (m_state c) ereq
  then ok (set_m_state edest (set_m_internal_state idest c))
  else thrown msg.

(** ** Handler facade *)

Definition emit (e : effect) (c : connection) : connection :=
  set_log (log c ++ [e]) c.

(** A callback dispatched by the connection goes through [m_handler]. *)
Definition dispatch (cb : callback) (c : connection) : connection :=
  emit (eff_call (m_handler c) cb) c.

(** Modelled from the spec: the body of [set_handler] (connection.hpp, line
    232) is in connection_impl.hpp.  Header: "Will invoke the old handler's
    on_unload callback followed by the new handler's on_load callback.  These
    callbacks will both happen immediately and before set_handler returns.
    [...] This method may be called at any time."  Spec 4.6: "swap the
    handler pointer; synchronously invoke old.on_unload(connection, new) and
    new.on_load(connection, old) in that order, before returning."  A
    connection that has no handler yet has no old handler to unload. *)
Definition set_handler (new_handler : handler_ptr) (c : connection)
  : connection :=
  let old_handler := m_handler c in
  let c1 := set_m_handler (Some new_handler) c in
  let c2 := match old_handler with
            | Some old => emit (eff_call (Some old) (cb_on_unload new_handler)) c1
            | None => c1
            end in
  emit (eff_call (Some new_handler) (cb_on_load old_handler)) c2.

(** ** Write pump *)

(** Modelled from the spec: the body of [get_buffered_amount]
    (connection.hpp, line 255) is in connection_impl.hpp.  Header: "@return
    The current number of bytes in the outgoing send buffer". *)
Definition get_buffered_amount (c : connection) : Z := m_send_buffer_size c.

(** DEPRECATED: use get_buffered_amount instead (connection.hpp, line 258). *)
Definition buffered_amount (c : connection) : Z := get_buffered_amount c.

Definition queue_empty (q : list message) : bool :=
  match q with [] => true | _ :: _ => false end.

(** Modelled from the spec: the bodies of [write_push] and [write_pop]
    (connection.hpp, lines 679 and 692) are in connection_impl.hpp.  Header:
    "Adds a message to the write queue and updates any associated shared
    state [...] @return whether or not the queue was empty", "Removes and
    returns a message from the write queue and updates any associated shared
    state"; the shared state of the queue is [m_send_buffer_size], "Size in
    bytes of the outstanding payloads in the write queue", which
    [get_buffered_amount] documents as the bytes "that have not already been
    dispatched to the transport layer". *)
Definition write_push (msg : message) (c : connection) : bool * connection :=
  let empty := queue_empty (m_send_queue c) in
  (empty,
   set_m_send_queue (m_send_queue c ++ [msg])
     (set_m_send_buffer_size
        (size_t_wrap (m_send_buffer_size c + payload_size msg)) c)).

Definition write_pop (c : connection) : option message * connection :=
  match m_send_queue c with
  | [] => (None, c)
  | msg :: rest =>
      (Some msg,
       set_m_send_queue rest
         (set_m_send_buffer_size
            (size_t_wrap (m_send_buffer_size c - payload_size msg)) c))
  end.

(** The processor frames a message that is not yet prepared; the payload it
    carries keeps its length. *)
Definition prepare (msg : message) : message :=
  if get_prepared msg then msg
  else mk_message (get_opcode msg) (get_payload msg) true (get_terminal msg).

(** Modelled from the spec: the body of [write_frame] (connection.hpp, line
    540) is in connection_impl.hpp.  Spec 4.4: "if the queue is non-empty and
    no write is in flight, pop the head message; if not already prepared,
    invoke the processor to prepare it [...]; submit the prepared buffers to
    the transport."  [m_send_buffer] holds "the current message being
    writen". *)
Definition write_frame (c : connection) : connection :=
  match m_send_buffer c with
  | Some _ => c
  | None =>
      match write_pop c with
      | (None, _) => c
      | (Some msg, c1) =>
          let msg' := prepare msg in
          emit (eff_transport_write msg') (set_m_send_buffer (Some msg') c1)
      end
  end.

(** Spec 4.4: write_frame "is called (a) after enqueue when the queue was
    previously empty". *)
Definition enqueue (msg : message) (c : connection) : connection :=
  let (empty, c1) := write_push msg c in
  if empty then write_frame c1 else c1.

(** ** Termination *)

(** Modelled from the spec: the body of [terminate] (connection.hpp, line
    532) is in connection_impl.hpp.  Spec 4.5: "idempotent; releases
    transport, resolves pending handlers, fires exactly one of on_close /
    on_fail, invokes the termination handler registered by the endpoint";
    section 5: "Pong and close-handshake timers are cancelled on terminate";
    section 3: the termination handler is "invoked once when the connection
    reaches its terminal state"; section 4.2: "terminate after the write
    drains; external remains CONNECTING -> CLOSED; fire on_fail".  The spec attaches a fail status to the
    connection that the class does not declare as a member; the caller passes
    it: [on_close] is the callback of a "clean termination" (GOOD), [on_fail]
    the one of an "abnormal termination". *)
Definition terminal_callback (why : fail.status.value) : callback :=
  match why with fail.status.GOOD => cb_on_close | _ => cb_on_fail end.

Definition terminate (why : fail.status.value) (c : connection) : connection :=
  match m_state c with
  | state.CLOSED => c
  | _ =>
      let c1 := emit eff_transport_shutdown c in
      let c2 := set_close_timer false (set_pong_timer None c1) in
      let c3 := set_m_state state.CLOSED c2 in
      emit eff_termination_handler (dispatch (terminal_callback why) c3)
  end.

(** Modelled from the spec: the body of [handle_write_frame] (connection.hpp,
    line 554) is in connection_impl.hpp.  Spec 4.4: on write completion
    "release the in-flight slot, and - if terminate is requested for this
    write (the final close frame) - call terminate(); otherwise call
    write_frame again to drain the next entry"; section 7: a transport write
    failure causes on_fail with fail status SYSTEM.  The counter is not
    touched here: the header counts in [m_send_buffer_size] the payloads "in
    the write queue", and the completed message left the queue in
    [write_pop]. *)
Definition handle_write_frame (terminate_flag : bool) (ec : error_code)
    (c : connection) : connection :=
  let c1 := set_m_send_buffer None c in
  if ec_failed ec then terminate fail.status.SYSTEM c1
  else if terminate_flag then terminate fail.status.GOOD c1
  else write_frame c1.

(** ** Control and close protocol *)

Module close.
Module status.
(** Modelled from the spec: [close.hpp] is not part of the sources.  The
    spec names the codes 1002, 1007 and 1009; RFC 6455 section 7.4.1
    reserves 1005 for "no status code was present". *)
Definition value := Z.
Definition protocol_error : value := 1002.
Definition no_status : value := 1005.
Definition invalid_payload : value := 1007.
Definition message_too_big : value := 1009.
End status.
End close.

(** Spec 6: "close reasons truncated to 123 payload bytes; control frames
    capped at 125 payload bytes per RFC". *)
Definition close_reason_size : nat := 123.
Definition control_payload_size : nat := 125.

(** The policies of the [config] template argument the connection consults. *)
Record config : Set := mk_config {
  silent_close : bool
}.

(** Payload of a CLOSE frame (RFC 6455 section 5.5.1): the code as two bytes
    in network order, then the reason. *)
Definition close_payload (code : close.status.value) (reason : string) : string :=
  String (ascii_of_N (Z.to_N (code / 256)))
    (String (ascii_of_N (Z.to_N (code mod 256))) reason).

Definition close_extract_code (payload : string) : close.status.value :=
  match payload with
  | String hi (String lo _) => Z.of_N (N_of_ascii hi) * 256 + Z.of_N (N_of_ascii lo)
  | _ => close.status.no_status
  end.

Definition close_extract_reason (payload : string) : string :=
  match payload with
  | String _ (String _ reason) => reason
  | _ => EmptyString
  end.

(** Modelled from the spec: the body of [send_close_frame] (connection.hpp,
    line 651) is in connection_impl.hpp.  Header: "the close code/reason
    values provided here may be overrided by other settings (such as silent
    close)"; spec 4.5: "Silent close policy: if configured, outgoing CLOSE
    omits code/reason even when set."  [m_local_close_code] and
    [m_local_close_reason] are what "was sent on the wire by this endpoint". *)
Definition send_close_frame (cfg : config) (code : close.status.value)
    (reason : string) (ack terminal : bool) (c : connection) : connection :=
  let sent_code := if silent_close cfg then close.status.no_status else code in
  let sent_reason := if silent_close cfg then EmptyString else reason in
  let payload :=
    if silent_close cfg then EmptyString else close_payload code reason in
  let c1 := set_m_local_close_reason sent_reason
              (set_m_local_close_code (Some sent_code) c) in
  enqueue (mk_message opcode.CLOSE payload false terminal) c1.

(** Modelled from the spec: the body of [send_close_ack] (connection.hpp,
    line 630) is in connection_impl.hpp.  Spec 4.5: "After ack write
    completes, arrange transport close and fire on_close": the ack is the
    terminal write. *)
Definition send_close_ack (cfg : config) (code : close.status.value)
    (reason : string) (c : connection) : connection :=
  send_close_frame cfg code reason true true c.

(** Modelled from the spec: the body of [close] (connection.hpp, lines 361
    and 365) is in connection_impl.hpp.  Spec 4.5: "truncate reason to 123
    bytes, populate local_close_*, send a CLOSE frame, external -> CLOSING,
    closed_by_me = true.  Start a closing-handshake timer".  The state moves
    through the state controller's advance-both primitive, which admits the
    call only on an open connection (section 3, invariant 1: CLOSING is
    entered from OPEN); otherwise the call ends in the programmer error of
    section 7. *)
Definition close (cfg : config) (code : close.status.value)
    (reason : string) (c : connection) : result connection :=
  match atomic_state_change_both
          internal_state.PROCESS_CONNECTION internal_state.PROCESS_CONNECTION
          state.OPEN state.CLOSING "close: invalid state" c with
  | thrown what => thrown what
  | ok c1 =>
      let tr := substring 0 close_reason_size reason in
      let c2 := send_close_frame cfg code tr false false c1 in
      ok (set_close_timer true (set_m_closed_by_me (Some true) c2))
  end.

(** Modelled from the spec: the bodies of [send], [ping] and [pong]
    (connection.hpp, lines 275-338) are in connection_impl.hpp.  Section 3,
    invariant 2: "Once external in {CLOSING, CLOSED}, no new data messages
    may be enqueued"; section 4.5: "ping(payload) enqueues a PING control
    frame with at most 125 payload bytes; arms a per-connection pong timer". *)
Definition send_message (msg : message) (c : connection) : result connection :=
  match m_state c with
  | state.CLOSING | state.CLOSED => thrown "send: invalid state"
  | _ => ok (enqueue msg c)
  end.

Definition send (payload : string) (op : opcode.value) (c : connection)
  : result connection :=
  send_message (mk_message op payload false false) c.

Definition ping (payload : string) (c : connection) : result connection :=
  if (control_payload_size <? String.length payload)%nat
  then thrown "ping: payload too large"
  else ok (set_pong_timer (Some payload)
             (enqueue (mk_message opcode.PING payload false false) c)).

Definition pong (payload : string) (c : connection) : result connection :=
  if (control_payload_size <? String.length payload)%nat
  then thrown "pong: payload too large"
  else ok (enqueue (mk_message opcode.PONG payload false false) c).

(** Modelled from the spec: the bodies of [interrupt] and [handle_interrupt]
    (connection.hpp, lines 306 and 309) are in connection_impl.hpp.  Spec
    4.7: "It posts a task onto the transport's execution context that, when
    executed, calls on_interrupt.  Multiple interrupts may be in flight
    simultaneously; each delivers exactly one callback.  Interrupt does not
    change any state." *)
Definition interrupt (c : connection) : error_code * connection :=
  (0, set_pending_interrupts (S (pending_interrupts c))
        (emit eff_transport_interrupt c)).

Definition handle_interrupt (c : connection) : connection :=
  match pending_interrupts c with
  | O => c
  | S n => dispatch cb_on_inturrupt (set_pending_interrupts n c)
  end.

(** ** Handshake pipeline *)

(** Modelled from the spec: the body of [get_supported_versions]
    (connection.hpp, line 526) is in connection_impl.hpp; it hands out the
    vector [VERSIONS_SUPPORTED] of the header. *)
Definition get_supported_versions (c : connection) : list Z :=
  VERSIONS_SUPPORTED.

Definition mem_version (v : Z) (l : list Z) : bool := existsb (Z.eqb v) l.

(** Modelled from the spec: the body of [get_processor] (connection.hpp, line
    665) is in connection_impl.hpp.  Header: "Negative values indicate
    invalid/unknown versions and will always return a null ptr [...] a null
    ptr if there is no installed processor that matches the version number".
    A processor is identified by the version it implements. *)
Definition get_processor (version : Z) (c : connection) : option Z :=
  if (version <? 0) then None
  else if mem_version version (get_supported_versions c) then Some version
  else None.

(** The highest version of [supported] that the request offers. *)
Definition highest_match (supported offered : list Z) : option Z :=
  fold_left
    (fun best v =>
       if mem_version v offered
       then match best with
            | Some b => Some (Z.max b v)
            | None => Some v
            end
       else best)
    supported None.

Definition decimal (v : Z) : string := NilZero.string_of_int (Z.to_int v).

Fixpoint join (sep : string) (l : list string) : string :=
  match l with
  | [] => EmptyString
  | [x] => x
  | x :: rest => (x ++ sep ++ join sep rest)%string
  end.

Definition versions_header_value (versions : list Z) : string :=
  join ", " (map decimal versions).

Definition replace_header (key val : string)
    (headers : list (string * string)) : list (string * string) :=
  (key, val) :: filter (fun kv => negb (String.eqb (fst kv) key)) headers.

Definition header_value (key : string)
    (headers : list (string * string)) : option string :=
  match find (fun kv => String.eqb (fst kv) key) headers with
  | Some kv => Some (snd kv)
  | None => None
  end.

Definition bad_request : Z := 400.
Definition switching_protocols : Z := 101.

(** Modelled from the spec: the body of [initialize_processor]
    (connection.hpp, line 560: "Set m_processor based on information in
    m_request.  Set m_response status and return false on error") is in
    connection_impl.hpp.  Spec 4.2, step 3: "Enumerate supported versions {0,
    7, 8, 13}; pick the highest matching processor.  If no match, set
    response status 400 and list supported versions in a header"; section 8:
    "HTTP 400 with Sec-WebSocket-Version: 0, 7, 8, 13".  [offered] are the
    versions the request asks for. *)
Definition initialize_processor (offered : list Z) (c : connection)
  : bool * connection :=
  match highest_match (get_supported_versions c) offered with
  | Some v =>
      match get_processor v c with
      | Some p => (true, set_m_processor (Some p) c)
      | None => (false, c)
      end
  | None =>
      (false,
       set_m_response
         (mk_response bad_request
            (replace_header "Sec-WebSocket-Version"
               (versions_header_value (get_supported_versions c))
               (get_headers (m_response c))))
         c)
  end.

Definition set_status (code : Z) (c : connection) : connection :=
  set_m_response (mk_response code (get_headers (m_response c))) c.

(** Modelled from the spec: [start] and [handle_transport_init]
    (connection.hpp, lines 507 and 556) have their bodies in
    connection_impl.hpp.  Spec 4.2, steps 1 and 2: the transport finishes its
    setup in TRANSPORT_INIT, "On error -> failure path"; a server goes on to
    READ_HTTP_REQUEST, a client to WRITE_HTTP_REQUEST. *)
Definition start (c : connection) : result connection :=
  atomic_state_change internal_state.USER_INIT internal_state.TRANSPORT_INIT
    "start: invalid state" c.

Definition handle_transport_init (ec : error_code) (c : connection)
  : result connection :=
  match atomic_state_check internal_state.TRANSPORT_INIT
          "handle_transport_init: invalid state" c with
  | thrown what => thrown what
  | ok c1 =>
      if ec_failed ec then ok (terminate fail.status.SYSTEM c1)
      else atomic_state_change internal_state.TRANSPORT_INIT
             (if m_is_server c1 then internal_state.READ_HTTP_REQUEST
              else internal_state.WRITE_HTTP_REQUEST)
             "handle_transport_init: invalid state" c1
  end.

(** Modelled from the spec: [handle_handshake_read],
    [process_handshake_request] and [send_http_response] (connection.hpp,
    lines 516, 564 and 606) have their bodies in connection_impl.hpp.  Spec
    4.2, steps 2 to 4 and the handler table of section 6: [http] runs once the
    request is parsed, the processor is selected and validates the request,
    the user's [validate] may reject it, and the response is written.
    [processor_ok] is the verdict of the processor's validation,
    [user_reject] the status the handler set when its [validate] returned
    false. *)
Definition handle_handshake_read (ec : error_code) (offered : list Z)
    (processor_ok : bool) (user_reject : option Z) (c : connection)
  : result connection :=
  match atomic_state_check internal_state.READ_HTTP_REQUEST
          "handle_handshake_read: invalid state" c with
  | thrown what => thrown what
  | ok c0 =>
      if ec_failed ec then ok (terminate fail.status.TIMEOUT_WS c0)
      else
        let c1 := set_m_internal_state internal_state.PROCESS_HTTP_REQUEST c0 in
        let c2 := dispatch cb_http c1 in
        let (found, c3) := initialize_processor offered c2 in
        let c4 :=
          if found then
            if processor_ok then
              let c' := dispatch cb_validate (set_status switching_protocols c3) in
              match user_reject with
              | Some code => set_status code c'
              | None => c'
              end
            else set_status bad_request c3
          else c3 in
        let c5 := set_m_internal_state internal_state.WRITE_HTTP_RESPONSE c4 in
        ok (emit (eff_transport_write_http (get_status_code (m_response c5))) c5)
  end.

(** Modelled from the spec: the body of [handle_send_http_response]
    (connection.hpp, line 522) is in connection_impl.hpp.  Spec 4.2, step 4:
    "On 101 Switching Protocols: internal -> PROCESS_CONNECTION, external ->
    OPEN, fire on_open.  On any other status: terminate after the write
    drains; external remains CONNECTING -> CLOSED; fire on_fail." *)
Definition handle_send_http_response (ec : error_code) (c : connection)
  : result connection :=
  match atomic_state_check internal_state.WRITE_HTTP_RESPONSE
          "handle_send_http_response: invalid state" c with
  | thrown what => thrown what
  | ok c0 =>
      if ec_failed ec then ok (terminate fail.status.SYSTEM c0)
      else if get_status_code (m_response c0) =? switching_protocols then
        match atomic_state_change_both
                internal_state.WRITE_HTTP_RESPONSE
                internal_state.PROCESS_CONNECTION
                state.CONNECTING state.OPEN
                "handle_send_http_response: invalid state" c0 with
        | thrown what => thrown what
        | ok c1 => ok (dispatch cb_on_open c1)
        end
      else ok (terminate fail.status.WEBSOCKET c0)
  end.

(** ** Read loop *)

(** What the processor found when it validated a data message. *)
Inductive data_check : Set := data_ok | data_bad_utf8 | data_too_big.

(** A message the processor produced from the bytes read, together with
    what the collaborators answer while it is handled: the processor's
    validation for a data message, the return value of the user's [on_ping]
    for a control message. *)
Inductive incoming : Set :=
| in_data (msg : message) (check : data_check)
| in_control (msg : message) (on_ping_result : bool).

(** Modelled from the spec: the body of [process_control_frame]
    (connection.hpp, line 615) is in connection_impl.hpp.  Spec 4.5:
    incoming PING "call the user's on_ping handler; if it returns true
    (default), enqueue a PONG echoing the payload"; PONG "with matching
    payload, cancel timer, invoke on_pong"; incoming CLOSE by the table of
    that section; section 8: "Control frame with payload length 126 ->
    protocol error, close with 1002". *)
Definition process_close (cfg : config) (msg : message) (c : connection)
  : connection :=
  match m_state c with
  | state.OPEN =>
      let code := close_extract_code (get_payload msg) in
      let reason := close_extract_reason (get_payload msg) in
      let c1 := set_m_remote_close_reason reason
                  (set_m_remote_close_code (Some code) c) in
      let c2 := send_close_ack cfg code EmptyString c1 in
      set_m_closed_by_me (Some false) (set_m_state state.CLOSING c2)
  | state.CLOSING => terminate fail.status.GOOD c
  | state.CLOSED | state.CONNECTING => terminate fail.status.WEBSOCKET c
  end.

Definition process_control_frame (cfg : config) (msg : message)
    (on_ping_result : bool) (c : connection) : connection :=
  if (control_payload_size <? String.length (get_payload msg))%nat
  then or_unchanged c (close cfg close.status.protocol_error EmptyString c)
  else
    match get_opcode msg with
    | opcode.PING =>
        let c1 := dispatch (cb_on_ping (get_payload msg)) c in
        if on_ping_result
        then or_unchanged c1 (pong (get_payload msg) c1)
        else c1
    | opcode.PONG =>
        let c1 :=
          match pong_timer c with
          | Some expected =>
              if String.eqb expected (get_payload msg)
              then set_pong_timer None c else c
          | None => c
          end in
        dispatch (cb_on_pong (get_payload msg)) c1
    | opcode.CLOSE => process_close cfg msg c
    | opcode.TEXT | opcode.BINARY => c
    end.

(** Spec 4.3: a data message is validated, "on violation initiate a close
    with code 1007 or 1009 respectively.  On success, hand to on_message"; a
    control message is "dispatched internally; never delivered to
    on_message". *)
Definition process_message (cfg : config) (m : incoming) (c : connection)
  : connection :=
  match m with
  | in_data msg data_ok => dispatch (cb_on_message msg) c
  | in_data _ data_bad_utf8 =>
      or_unchanged c (close cfg close.status.invalid_payload EmptyString c)
  | in_data _ data_too_big =>
      or_unchanged c (close cfg close.status.message_too_big EmptyString c)
  | in_control msg on_ping_result =>
      process_control_frame cfg msg on_ping_result c
  end.

Fixpoint process_messages (cfg : config) (msgs : list incoming)
    (c : connection) : connection :=
  match msgs with
  | [] => c
  | m :: rest =>
      match m_state c with
      | state.CLOSED => c
      | _ => process_messages cfg rest (process_message cfg m c)
      end
  end.

(** Modelled from the spec: the body of [handle_read_frame] (connection.hpp,
    line 519) is in connection_impl.hpp.  Spec 4.3: the read loop runs in
    PROCESS_CONNECTION; "On transport EOF: if external = CLOSING and a close
    frame has been exchanged both directions, transition to CLOSED cleanly;
    otherwise on_fail with SYSTEM."  A closing connection has seen the close
    frames of both sides when the peer began the handshake
    ([m_closed_by_me] is false). *)
Definition close_exchanged (c : connection) : bool :=
  state.eqb (m_state c) state.CLOSING
  && match m_closed_by_me c with Some false => true | _ => false end.

Definition handle_read_frame (cfg : config) (ec : error_code)
    (msgs : list incoming) (c : connection) : result connection :=
  match atomic_state_check internal_state.PROCESS_CONNECTION
          "handle_read_frame: invalid state" c with
  | thrown what => thrown what
  | ok c0 =>
      if ec_failed ec then
        ok (terminate (if close_exchanged c0 then fail.status.GOOD
                       else fail.status.SYSTEM) c0)
      else ok (process_messages cfg msgs c0)
  end.

(** Spec 4.5: the pong timer fires [on_pong_timeout]; when the closing
    handshake timer expires "force terminate with dropped_by_me = true and
    fire on_close with the local code". *)
Definition handle_pong_timeout (c : connection) : connection :=
  match pong_timer c with
  | Some payload => dispatch (cb_on_pong_timeout payload) (set_pong_timer None c)
  | None => c
  end.

Definition handle_close_timeout (c : connection) : connection :=
  if close_timer c
  then terminate fail.status.GOOD (set_m_dropped_by_me (Some true) c)
  else c.

(** ** Lifecycle

    Everything that can happen to a connection: the calls of the application
    and the endpoint, and the completions the transport delivers on the
    connection's strand. *)

Inductive event : Set :=
| ev_set_handler (new_handler : handler_ptr)
| ev_send (payload : string) (op : opcode.value)
| ev_send_message (msg : message)
| ev_ping (payload : string)
| ev_pong (payload : string)
| ev_close (code : close.status.value) (reason : string)
| ev_interrupt
| ev_terminate (why : fail.status.value)
| ev_start
| ev_handle_transport_init (ec : error_code)
| ev_handle_handshake_read (ec : error_code) (offered : list Z)
    (processor_ok : bool) (user_reject : option Z)
| ev_handle_send_http_response (ec : error_code)
| ev_handle_read_frame (ec : error_code) (msgs : list incoming)
| ev_handle_write_frame (ec : error_code)
| ev_handle_interrupt
| ev_pong_timeout
| ev_close_timeout.

(** The completions of reads, writes and timers; [terminate] releases the
    transport and cancels the timers, so none of them reaches a closed
    connection. *)
Definition transport_completion (e : event) : bool :=
  match e with
  | ev_handle_transport_init _ | ev_handle_handshake_read _ _ _ _
  | ev_handle_send_http_response _ | ev_handle_read_frame _ _
  | ev_handle_write_frame _ | ev_pong_timeout | ev_close_timeout => true
  | _ => false
  end.

(** One event; an operation that throws leaves the connection as it was. *)
Definition perform (cfg : config) (e : event) (c : connection) : connection :=
  match e with
  | ev_set_handler h => set_handler h c
  | ev_send payload op => or_unchanged c (send payload op c)
  | ev_send_message msg => or_unchanged c (send_message msg c)
  | ev_ping payload => or_unchanged c (ping payload c)
  | ev_pong payload => or_unchanged c (pong payload c)
  | ev_close code reason => or_unchanged c (close cfg code reason c)
  | ev_interrupt => snd (interrupt c)
  | ev_terminate why => terminate why c
  | ev_start => or_unchanged c (start c)
  | ev_handle_transport_init ec => or_unchanged c (handle_transport_init ec c)
  | ev_handle_handshake_read ec offered processor_ok user_reject =>
      or_unchanged c
        (handle_handshake_read ec offered processor_ok user_reject c)
  | ev_handle_send_http_response ec =>
      or_unchanged c (handle_send_http_response ec c)
  | ev_handle_read_frame ec msgs =>
      or_unchanged c (handle_read_frame cfg ec msgs c)
  | ev_handle_write_frame ec =>
      match m_send_buffer c with
      | Some msg => handle_write_frame (get_terminal msg) ec c
      | None => c
      end
  | ev_handle_interrupt => handle_interrupt c
  | ev_pong_timeout => handle_pong_timeout c
  | ev_close_timeout => handle_close_timeout c
  end.

Definition step (cfg : config) (c : connection) (e : event) : connection :=
  if transport_completion e && state.eqb (m_state c) state.CLOSED
  then c
  else perform cfg e c.

Definition run (cfg : config) (events : list event) (c : connection)
  : connection :=
  fold_left (step cfg) events c.

(** A connection as the constructor leaves it. *)
Definition fresh (is_server : bool) (ua : string) : connection :=
  fst (connection_ctor is_server ua EmptyString).

(** ** The public interface, as declared (connection.hpp, lines 198-554)

    One entry per declaration of the [public:] section: name, return type
    and parameter types. *)

Record declaration : Set := mk_declaration {
  decl_name : string;
  decl_return : string;
  decl_params : list string
}.

Definition public_interface : list declaration :=
  [ mk_declaration "set_handle" "void" ["connection_hdl"];
    mk_declaration "get_handle" "connection_hdl" [];
    mk_declaration "set_open_handler" "void" ["open_handler"];
    mk_declaration "set_handler" "void" ["handler_ptr"];
    mk_declaration "get_origin" "const std::string&" [];
    mk_declaration "get_buffered_amount" "size_t" [];
    mk_declaration "buffered_amount" "size_t" [];
    mk_declaration "send" "void" ["const std::string&"; "frame::opcode::value"];
    mk_declaration "send" "void" ["message_ptr"];
    mk_declaration "interrupt" "lib::error_code" [];
    mk_declaration "handle_interrupt" "void" [];
    mk_declaration "ping" "void" ["const std::string&"];
    mk_declaration "pong" "void" ["const std::string &"];
    mk_declaration "pong" "void" ["const std::string &"; "lib::error_code &"];
    mk_declaration "close" "void"
      ["const close::status::value"; "const std::string &"];
    mk_declaration "close" "void"
      ["const close::status::value"; "const std::string &"; "lib::error_code &"];
    mk_declaration "get_secure" "bool" [];
    mk_declaration "get_host" "const std::string&" [];
    mk_declaration "get_resource" "const std::string&" [];
    mk_declaration "get_port" "uint16_t" [];
    mk_declaration "set_status" "void" ["http::status_code::value"];
    mk_declaration "set_status" "void"
      ["http::status_code::value"; "const std::string&"];
    mk_declaration "set_body" "void" ["const std::string&"];
    mk_declaration "append_header" "void"
      ["const std::string &"; "const std::string &"];
    mk_declaration "replace_header" "void"
      ["const std::string &"; "const std::string &"];
    mk_declaration "remove_header" "void" ["const std::string &"];
    mk_declaration "start" "void" [];
    mk_declaration "read" "void" ["size_t"];
    mk_declaration "handle_read" "void" ["const lib::error_code&"; "size_t"];
    mk_declaration "write" "void" ["std::string"];
    mk_declaration "handle_write" "void" ["const lib::error_code&"];
    mk_declaration "handle_handshake_read" "void"
      ["const lib::error_code&"; "size_t"];
    mk_declaration "handle_read_frame" "void"
      ["const lib::error_code&"; "size_t"];
    mk_declaration "handle_send_http_response" "void" ["const lib::error_code&"];
    mk_declaration "get_supported_versions" "const std::vector<int>&" [];
    mk_declaration "set_termination_handler" "void" ["termination_handler"];
    mk_declaration "terminate" "void" [];
    mk_declaration "write_frame" "void" [];
    mk_declaration "handle_write_frame" "void"
      ["bool"; "const lib::error_code&"] ].

(** A declaration reports errors through an out-parameter when it takes a
    mutable [lib::error_code] reference, through its result when it returns
    a [lib::error_code], and by an exception otherwise. *)
Definition has_ec_out_param (d : declaration) : bool :=
  existsb (String.eqb "lib::error_code &") (decl_params d).

Definition returns_ec (d : declaration) : bool :=
  String.eqb (decl_return d) "lib::error_code".

Definition raising_form (d : declaration) : bool :=
  negb (has_ec_out_param d) && negb (returns_ec d).

Definition declared (form : declaration -> bool) (name : string) : bool :=
  existsb (fun d => String.eqb (decl_name d) name && form d) public_interface.

Definition dual_form (name : string) : bool :=
  declared raising_form name && declared has_ec_out_param name.

Fixpoint dedup (l : list string) : list string :=
  match l with
  | [] => []
  | x :: rest => x :: filter (fun y => negb (String.eqb x y)) (dedup rest)
  end.

Definition public_operations : list string :=
  dedup (map decl_name public_interface).

(** ** What the log of a connection says *)








Definition is_terminal_callback (cb : callback) : bool :=
  match cb with cb_on_close | cb_on_fail => true | _ => false end.



Definition queue_bytes (q : list message) : Z :=
  fold_right (fun m acc => payload_size m + acc) 0 q.


(** ** Statements about connections *)





(** The two [const] members survive every operation. *)
Definition same_settings (c c' : connection) : Prop :=
  m_user_agent c' = m_user_agent c /\ m_is_server c' = m_is_server c.







(** The counter is the wrapped sum of the payloads in the send queue. *)
Definition pump_inv (c : connection) : Prop :=
  m_send_buffer_size c = size_t_wrap (queue_bytes (m_send_queue c)).

(** ** Members outside the state machine (connection.hpp, lines 198-216 and
    698-700)

    [connection_hdl] is declared in connection_hdl.hpp and [open_handler] is
    a [lib::function]: a handle either refers to something of a type [T] the
    header does not fix, or is empty; a function object either holds a
    callable of a type [F], or is empty.  The constructor names neither
    member in its initialiser list, so both start empty. *)

Definition connection_hdl (T : Type) : Type := option T.

Definition open_handler (F : Type) : Type := option F.

Record connection_members (T F : Type) : Type := mk_members {
  base : connection;
  m_connection_hdl : connection_hdl T;
  m_open_handler : open_handler F
}.

Arguments mk_members {T F} base m_connection_hdl m_open_handler.
Arguments base {T F} c.
Arguments m_connection_hdl {T F} c.
Arguments m_open_handler {T F} c.

Definition connection_members_ctor {T F : Type} (is_server : bool)
    (ua : string) (cout : string) : connection_members T F * string :=
  (mk_members (fst (connection_ctor is_server ua cout)) None None,
   snd (connection_ctor is_server ua cout)).

(** connection.hpp, lines 198-200. *)
Definition set_handle {T F : Type} (hdl : connection_hdl T)
    (c : connection_members T F) : connection_members T F :=
  mk_members (base c) hdl (m_open_handler c).

(** connection.hpp, lines 210-212. *)
Definition get_handle {T F : Type} (c : connection_members T F)
  : connection_hdl T :=
  m_connection_hdl c.

(** connection.hpp, lines 214-216. *)
Definition set_open_handler {T F : Type} (h : open_handler F)
    (c : connection_members T F) : connection_members T F :=
  mk_members (base c) (m_connection_hdl c) h.

(** A call of one of the two setters. *)
Inductive member_call (T F : Type) : Type :=
| call_set_handle (hdl : connection_hdl T)
| call_set_open_handler (h : open_handler F).

Arguments call_set_handle {T F} hdl.
Arguments call_set_open_handler {T F} h.

Definition apply_call {T F : Type} (c : connection_members T F)
    (call : member_call T F) : connection_members T F :=
  match call with
  | call_set_handle hdl => set_handle hdl c
  | call_set_open_handler h => set_open_handler h c
  end.

Definition apply_calls {T F : Type} (calls : list (member_call T F))
    (c : connection_members T F) : connection_members T F :=
  fold_left apply_call calls c.

(** The argument of the last [set_handle] among [calls], if there is one. *)
Fixpoint last_set_handle {T F : Type} (calls : list (member_call T F))
  : option (connection_hdl T) :=
  match calls with
  | [] => None
  | call :: rest =>
      match last_set_handle rest with
      | Some hdl => Some hdl
      | None =>
          match call with
          | call_set_handle hdl => Some hdl
          | call_set_open_handler _ => None
          end
      end
  end.

Fixpoint last_set_open_handler {T F : Type} (calls : list (member_call T F))
  : option (open_handler F) :=
  match calls with
  | [] => None
  | call :: rest =>
      match last_set_open_handler rest with
      | Some h => Some h
      | None =>
          match call with
          | call_set_open_handler h => Some h
          | call_set_handle _ => None
          end
      end
  end.

(** ** Several constructions in a row

    Each construction runs the constructor body on the standard output the
    previous one left. *)
Fixpoint construct_all (args : list (bool * string)) (cout : string)
  : list connection * string :=
  match args with
  | [] => ([], cout)
  | (is_server, ua) :: rest =>
      let built := connection_ctor is_server ua cout in
      let others := construct_all rest (snd built) in
      (fst built :: fst others, snd others)
  end.

Fixpoint lines (n : nat) (line : string) : string :=
  match n with
  | O => EmptyString
  | S k => (line ++ endl ++ lines k line)%string
  end.

(** ** The other configuration of [VERSIONS_SUPPORTED] (connection.hpp, line
    58, under [_WEBSOCKETPP_INITIALIZER_LISTS_]) *)

Definition VERSIONS_SUPPORTED_INITIALIZER_LISTS : list Z := [0; 7; 8; 13].

(** [std::vector<int>(first, last)] over an array: the elements from offset
    [first] up to, not including, offset [last]; reading past the end of the
    array has no defined result. *)
Definition vector_from_range (array : list Z) (first last : nat)
  : option (list Z) :=
  if (last <=? List.length array)%nat && (first <=? last)%nat
  then Some (firstn (last - first) (skipn first array))
  else None.

(** ** The handler base class (connection.hpp, lines 124-153)

    A handler is its table of virtual member functions.  A callback receives
    the connection and may act on it; the two that return [bool] also give
    their answer. *)

Record handler : Type := mk_handler {
  http : connection -> connection;
  validate : connection -> bool * connection;
  on_inturrupt : connection -> connection;
  on_open : connection -> connection;
  on_fail : connection -> connection;
  on_message : connection -> message -> connection;
  on_close : connection -> connection;
  on_ping : connection -> string -> bool * connection;
  on_pong : connection -> string -> connection;
  on_pong_timeout : connection -> string -> connection;
  on_load : connection -> option handler_ptr -> connection;
  on_unload : connection -> handler_ptr -> connection
}.

(** The bodies the class gives: empty, or [return true]. *)
Definition handler_base : handler :=
  {| http := fun con => con;
     validate := fun con => (true, con);
     on_inturrupt := fun con => con;
     on_open := fun con => con;
     on_fail := fun con => con;
     on_message := fun con _ => con;
     on_close := fun con => con;
     on_ping := fun con _ => (true, con);
     on_pong := fun con _ => con;
     on_pong_timeout := fun con _ => con;
     on_load := fun con _ => con;
     on_unload := fun con _ => con |}.

(** One call through the table: the answer, for the callbacks that give
    one, and the connection afterwards. *)
Definition invoke (h : handler) (cb : callback) (con : connection)
  : option bool * connection :=
  match cb with
  | cb_http => (None, http h con)
  | cb_validate => (Some (fst (validate h con)), snd (validate h con))
  | cb_on_inturrupt => (None, on_inturrupt h con)
  | cb_on_open => (None, on_open h con)
  | cb_on_fail => (None, on_fail h con)
  | cb_on_message msg => (None, on_message h con msg)
  | cb_on_close => (None, on_close h con)
  | cb_on_ping payload =>
      (Some (fst (on_ping h con payload)), snd (on_ping h con payload))
  | cb_on_pong payload => (None, on_pong h con payload)
  | cb_on_pong_timeout payload => (None, on_pong_timeout h con payload)
  | cb_on_load old_handler => (None, on_load h con old_handler)
  | cb_on_unload new_handler => (None, on_unload h con new_handler)
  end.

Fixpoint invoke_all (h : handler) (cbs : list callback) (con : connection)
  : list bool * connection :=
  match cbs with
  | [] => ([], con)
  | cb :: rest =>
      let r := invoke h cb con in
      let rs := invoke_all h rest (snd r) in
      (match fst r with Some b => b :: fst rs | None => fst rs end, snd rs)
  end.

Definition gives_answer (cb : callback) : bool :=
  match cb with cb_validate | cb_on_ping _ => true | _ => false end.

(** ** The protected and private member functions, as declared
    (connection.hpp, lines 555-692) *)






(** * Properties *)

(** ** Construction *)

(** C9: for every pair of constructor arguments the constructor appends the
    line "connection constructor", ended by [std::endl], to standard output,
    whatever the arguments and whatever was written before. *)
Theorem constructor_logs_to_stdout :
  forall (is_server : bool) (ua cout : string),
    snd (connection_ctor is_server ua cout)
    = (cout ++ "connection constructor" ++ endl)%string
    /\ endl = String (ascii_of_nat 10) EmptyString.
Proof.
  intros is_server ua cout. split; reflexivity.
Qed.

Lemma same_settings_refl : forall c, same_settings c c.
Proof. intros c. split; reflexivity. Qed.

Lemma same_settings_trans :
  forall a b c, same_settings a b -> same_settings b c -> same_settings a c.
Proof.
  unfold same_settings. intros a b c [H1 H2] [H3 H4].
  split; congruence.
Qed.

(** Case analysis on the innermost scrutinee, so that every analysis is on
    a member of the object or on an argument. *)
Ltac break_inner :=
  match goal with
  | |- context [match ?x with _ => _ end] =>
      lazymatch x with
      | context [match _ with _ => _ end] => fail
      | _ => destruct x eqn:?
      end
  end.

Ltac open_ops :=
  unfold handle_close_timeout, handle_pong_timeout, handle_read_frame,
    process_message, process_control_frame, process_close, close_exchanged,
    handle_send_http_response, handle_handshake_read, handle_transport_init,
    start, set_status, initialize_processor, handle_interrupt, interrupt,
    pong, ping, send, send_message, close, send_close_ack, send_close_frame,
    handle_write_frame, terminate, terminal_callback, enqueue, write_frame,
    write_pop, write_push, queue_empty, set_handler, dispatch, emit,
    atomic_state_change_both, atomic_state_change, atomic_state_check,
    or_unchanged, internal_state.eqb, state.eqb, internal_state.to_Z,
    state.to_Z.

Ltac recall :=
  repeat match goal with
         | H : ?f ?c = _ |- context [?f ?c] => rewrite H
         end.

Ltac by_cases :=
  open_ops; repeat (simpl; try (break_inner; try discriminate)); simpl;
  recall.


(** Equalities between [size_t] sums. *)
Ltac wrap_arith :=
  repeat match goal with
         | |- context [payload_size (mk_message ?o EmptyString ?p ?t)] =>
             change (payload_size (mk_message o EmptyString p t)) with 0
         end;
  repeat match goal with
         | |- context [payload_size ?m] =>
             let n := fresh "n" in
             set (n := payload_size m) in *; clearbody n
         end;
  unfold size_t_wrap;
  repeat first [ rewrite Zplus_mod_idemp_l | rewrite Zplus_mod_idemp_r
               | rewrite Zminus_mod_idemp_l | rewrite Zminus_mod_idemp_r ];
  f_equal; ring.

Ltac by_sum_cases sum_app :=
  by_cases; intros; simpl in *;
  rewrite ?sum_app; simpl;
  try match goal with
      | H : m_send_buffer_size _ = _ |- _ => rewrite H
      end;
  try reflexivity; try wrap_arith.

Lemma process_message_settings :
  forall cfg m c, same_settings c (process_message cfg m c).
Proof.
  intros cfg m c. unfold same_settings.
  by_cases; split; reflexivity.
Qed.

Lemma process_messages_settings :
  forall cfg msgs c, same_settings c (process_messages cfg msgs c).
Proof.
  intros cfg msgs. induction msgs as [|m rest IH]; intros c; simpl.
  - apply same_settings_refl.
  - destruct (m_state c); try apply same_settings_refl;
      (eapply same_settings_trans; [apply process_message_settings | apply IH]).
Qed.

Lemma perform_settings :
  forall cfg e c, same_settings c (perform cfg e c).
Proof.
  intros cfg e c.
  destruct e;
    try (unfold same_settings, perform; by_cases; split; reflexivity).
  (* ev_handle_read_frame *)
  unfold perform, handle_read_frame, atomic_state_check, or_unchanged.
  destruct (internal_state.eqb _ _); [|apply same_settings_refl].
  destruct (ec_failed ec).
  - unfold same_settings. by_cases; split; reflexivity.
  - apply process_messages_settings.
Qed.

Lemma step_settings : forall cfg c e, same_settings c (step cfg c e).
Proof.
  intros cfg c e. unfold step.
  destruct (transport_completion e && state.eqb (m_state c) state.CLOSED).
  - apply same_settings_refl.
  - apply perform_settings.
Qed.

Lemma run_settings : forall cfg events c, same_settings c (run cfg events c).
Proof.
  intros cfg events. unfold run.
  induction events as [|e rest IH]; intros c; simpl.
  - apply same_settings_refl.
  - eapply same_settings_trans; [apply step_settings | apply IH].
Qed.

(** C10: a freshly constructed connection has external state CONNECTING,
    internal state USER_INIT and a buffered amount of 0, and holds the role
    and the user agent it was given; no sequence of operations changes these
    two. *)
Theorem constructor_initial_state :
  forall (is_server : bool) (ua cout : string),
    let c := fst (connection_ctor is_server ua cout) in
    m_state c = state.CONNECTING
    /\ m_internal_state c = internal_state.USER_INIT
    /\ m_send_buffer_size c = 0
    /\ get_buffered_amount c = 0
    /\ m_is_server c = is_server
    /\ m_user_agent c = ua
    /\ (forall cfg events,
          m_is_server (run cfg events c) = is_server
          /\ m_user_agent (run cfg events c) = ua).
Proof.
  intros is_server ua cout c.
  repeat (split; [reflexivity|]).
  intros cfg events.
  destruct (run_settings cfg events c) as [Hua Hsrv].
  split; [rewrite Hsrv | rewrite Hua]; reflexivity.
Qed.

(** ** Supported versions and processor selection *)

Lemma mem_version_In : forall v l, mem_version v l = true <-> In v l.
Proof.
  intros v l. unfold mem_version. rewrite existsb_exists. split.
  - intros [x [Hin Heq]]. apply Z.eqb_eq in Heq. subst. exact Hin.
  - intros Hin. exists v. split; [exact Hin | apply Z.eqb_refl].
Qed.

Lemma mem_version_not_In : forall v l, mem_version v l = false <-> ~ In v l.
Proof.
  intros v l. rewrite <- mem_version_In.
  destruct (mem_version v l); split; intros H; try reflexivity;
    try discriminate; try (intros H'; discriminate).
  exfalso. apply H. reflexivity.
Qed.

(** C4: [get_supported_versions] returns the list 0, 7, 8, 13 in this order;
    processor selection picks the highest of these versions that the request
    offers; when none is offered the response gets status 400 and the header
    Sec-WebSocket-Version with the value "0, 7, 8, 13". *)
Theorem supported_versions_and_selection :
  forall (c : connection) (offered : list Z),
    get_supported_versions c = [0; 7; 8; 13]
    /\ match initialize_processor offered c with
       | (true, c') =>
           exists v,
             m_processor c' = Some v
             /\ In v (get_supported_versions c)
             /\ In v offered
             /\ (forall w, In w (get_supported_versions c) -> In w offered ->
                           w <= v)
       | (false, c') =>
           (forall w, In w (get_supported_versions c) -> ~ In w offered)
           /\ get_status_code (m_response c') = 400
           /\ header_value "Sec-WebSocket-Version" (get_headers (m_response c'))
              = Some "0, 7, 8, 13"
       end.
Proof.
  intros c offered. split; [reflexivity|].
  unfold initialize_processor, get_processor, highest_match,
    get_supported_versions, VERSIONS_SUPPORTED, HELPER.
  simpl.
  destruct (mem_version 0 offered) eqn:H0;
    destruct (mem_version 7 offered) eqn:H7;
    destruct (mem_version 8 offered) eqn:H8;
    destruct (mem_version 13 offered) eqn:H13; simpl;
    rewrite ?mem_version_In, ?mem_version_not_In in *;
    try (eexists; split; [reflexivity|];
         split; [simpl; tauto|];
         split; [assumption|];
         intros w [Hw|[Hw|[Hw|[Hw|[]]]]] Hin; subst w;
         first [ lia | contradiction ]).
  split; [|split; reflexivity].
  intros w [Hw|[Hw|[Hw|[Hw|[]]]]]; subst w; assumption.
Qed.

(** A request offering versions 8 and 13 gets the processor for 13; a
    request offering only version 99 is answered with status 400 and the
    list of supported versions. *)
Lemma supported_versions_and_selection_witness :
  let c := fresh true "ua" in
  m_processor (snd (initialize_processor [8; 13] c)) = Some 13
  /\ fst (initialize_processor [99] c) = false
  /\ header_value "Sec-WebSocket-Version"
       (get_headers (m_response (snd (initialize_processor [99] c))))
     = Some "0, 7, 8, 13".
Proof.
  intros c.
  pose proof (supported_versions_and_selection c [8; 13]) as [_ Hsel].
  pose proof (supported_versions_and_selection c [99]) as [_ Hnone].
  split; [|split].
  - destruct (initialize_processor [8; 13] c) as [[|] c'] eqn:E.
    + destruct Hsel as [v [Hv [_ [_ Hmax]]]].
      simpl. rewrite Hv. f_equal.
      assert (13 <= v) by (apply Hmax; simpl; tauto).
      vm_compute in E. inversion E; subst c'. simpl in Hv.
      inversion Hv. reflexivity.
    + vm_compute in E. discriminate.
  - reflexivity.
  - destruct (initialize_processor [99] c) as [[|] c'] eqn:E.
    + vm_compute in E. discriminate.
    + destruct Hnone as [_ [_ Hheader]]. exact Hheader.
Defined.

(** ** State controller *)







(** ** Forms of the public operations *)

(** C5, as stated: every public operation has both a raising form and a form
    with a status-code out-parameter.  [ping] is declared once, without such
    a parameter. *)
Lemma dual_form_fails_for_ping :
  ~ (forall name, In name public_operations -> dual_form name = true).
Proof.
  intros H. specialize (H "ping").
  assert (Hin : In "ping" public_operations) by (vm_compute; tauto).
  apply H in Hin. vm_compute in Hin. discriminate.
Qed.

(** C5, amended: of the public operations exactly [pong] and [close] are
    declared in two forms, one raising and one with a [lib::error_code]
    out-parameter; [send] (both overloads) and [ping] are declared only in
    the raising form, and [interrupt] only in a form that returns the error
    code. *)
Theorem dual_forms_declared :
  filter dual_form public_operations = ["pong"; "close"]
  /\ (declared raising_form "send" = true
      /\ declared has_ec_out_param "send" = false)
  /\ (declared raising_form "ping" = true
      /\ declared has_ec_out_param "ping" = false)
  /\ (declared returns_ec "interrupt" = true
      /\ declared raising_form "interrupt" = false
      /\ declared has_ec_out_param "interrupt" = false).
Proof.
  vm_compute. repeat split; reflexivity.
Qed.

(** ** Close reason *)







(** ** External state *)











(** ** Terminal callbacks *)














(** ** Handler swap *)











(** ** Buffered amount *)

Lemma queue_bytes_app :
  forall q q', queue_bytes (q ++ q') = queue_bytes q + queue_bytes q'.
Proof.
  induction q as [|m q IH]; intros q'; simpl.
  - reflexivity.
  - rewrite IH. lia.
Qed.


Lemma write_push_pump :
  forall msg c, pump_inv c -> pump_inv (snd (write_push msg c)).
Proof. intros msg c. unfold pump_inv. by_sum_cases queue_bytes_app. Qed.

Lemma write_pop_pump :
  forall c, pump_inv c -> pump_inv (snd (write_pop c)).
Proof. intros c. unfold pump_inv. by_sum_cases queue_bytes_app. Qed.









(** ** Handle and open handler *)

Lemma apply_calls_members :
  forall (T F : Type) (calls : list (member_call T F))
         (c : connection_members T F),
    get_handle (apply_calls calls c)
    = match last_set_handle calls with
      | Some hdl => hdl
      | None => get_handle c
      end
    /\ m_open_handler (apply_calls calls c)
       = match last_set_open_handler calls with
         | Some h => h
         | None => m_open_handler c
         end
    /\ base (apply_calls calls c) = base c.
Proof.
  intros T F calls. unfold apply_calls.
  induction calls as [|call rest IH]; intros c; simpl.
  - repeat split; reflexivity.
  - destruct (IH (apply_call c call)) as [Hh [Ho Hb]].
    rewrite Hh, Ho, Hb.
    destruct (last_set_handle rest), (last_set_open_handler rest),
      call; repeat split; reflexivity.
Qed.

(** X1: after any sequence of [set_handle] and [set_open_handler] calls,
    [get_handle] returns the argument of the last [set_handle] (the handle
    held before, when there was none), the open handler is the argument of
    the last [set_open_handler], and the rest of the connection is as it
    was; on a connection straight from the constructor with no [set_handle]
    in the sequence the handle is empty. *)
Theorem get_handle_returns_last_set :
  forall (T F : Type) (calls : list (member_call T F))
         (c : connection_members T F) (is_server : bool) (ua cout : string),
    (get_handle (apply_calls calls c)
     = match last_set_handle calls with
       | Some hdl => hdl
       | None => get_handle c
       end
     /\ m_open_handler (apply_calls calls c)
        = match last_set_open_handler calls with
          | Some h => h
          | None => m_open_handler c
          end
     /\ base (apply_calls calls c) = base c)
    /\ (last_set_handle calls = None ->
        get_handle
          (apply_calls calls (fst (connection_members_ctor is_server ua cout)))
        = None).
Proof.
  intros T F calls c is_server ua cout. split.
  - apply apply_calls_members.
  - intros Hnone.
    destruct (apply_calls_members T F calls
                (fst (connection_members_ctor is_server ua cout)))
      as [Hh _].
    rewrite Hh, Hnone. reflexivity.
Qed.

(** Two handles are set, with an open handler in between and after. *)
Lemma get_handle_returns_last_set_witness :
  let c := fst (@connection_members_ctor nat nat true "ua" "") in
  get_handle
    (apply_calls
       [call_set_handle (Some 1%nat); call_set_open_handler (Some 7%nat);
        call_set_handle (Some 2%nat); call_set_open_handler None] c)
  = Some 2%nat
  /\ get_handle (apply_calls [call_set_open_handler (Some 7%nat)] c) = None.
Proof.
  intros c. split.
  - destruct (get_handle_returns_last_set nat nat
                [call_set_handle (Some 1%nat);
                 call_set_open_handler (Some 7%nat);
                 call_set_handle (Some 2%nat); call_set_open_handler None]
                c true "ua" "") as [[H _] _].
    exact H.
  - destruct (get_handle_returns_last_set nat nat
                [call_set_open_handler (Some 7%nat)] c true "ua" "")
      as [_ H].
    apply H. reflexivity.
Defined.

(** X2: [set_handle] and [get_handle] are a store and its read: the read
    gives back what was stored, storing twice keeps the second handle,
    storing what was read changes nothing, and [set_handle] and
    [set_open_handler] can be called in either order. *)
Theorem set_handle_get_handle_laws :
  forall (T F : Type) (c : connection_members T F)
         (h1 h2 : connection_hdl T) (f : open_handler F),
    get_handle (set_handle h1 c) = h1
    /\ set_handle h2 (set_handle h1 c) = set_handle h2 c
    /\ set_handle (get_handle c) c = c
    /\ get_handle (set_open_handler f c) = get_handle c
    /\ set_handle h1 (set_open_handler f c)
       = set_open_handler f (set_handle h1 c).
Proof.
  intros T F c h1 h2 f. destruct c as [b hdl oh].
  repeat split; reflexivity.
Qed.

(** ** Constructions in a row *)

Lemma string_app_assoc :
  forall a b c : string, ((a ++ b) ++ c = a ++ (b ++ c))%string.
Proof.
  induction a as [|x a IH]; intros b c; simpl.
  - reflexivity.
  - rewrite IH. reflexivity.
Qed.

Lemma string_app_length :
  forall a b : string,
    String.length (a ++ b) = (String.length a + String.length b)%nat.
Proof.
  induction a as [|x a IH]; intros b; simpl.
  - reflexivity.
  - rewrite IH. reflexivity.
Qed.

(** X3: constructing connections one after the other appends one line
    "connection constructor" per connection to standard output, after what
    was there and in nothing else: the output grows by 23 bytes each time;
    the connections come out in the order of their arguments, each with its
    own role and user agent. *)
Theorem construct_all_writes_one_line_each :
  forall (args : list (bool * string)) (cout : string),
    let built := construct_all args cout in
    snd built
    = (cout ++ lines (List.length args) "connection constructor")%string
    /\ String.length (snd built)
       = (String.length cout + 23 * List.length args)%nat
    /\ map m_is_server (fst built) = map fst args
    /\ map m_user_agent (fst built) = map snd args
    /\ Forall (fun c => m_state c = state.CONNECTING
                        /\ m_internal_state c = internal_state.USER_INIT)
         (fst built).
Proof.
  induction args as [|[is_server ua] rest IH]; intros cout built.
  - subst built. simpl. repeat split.
    + clear. induction cout as [|x cout IH]; simpl; [|rewrite <- IH];
        reflexivity.
    + lia.
    + constructor.
  - subst built. cbn [construct_all fst snd].
    specialize (IH (snd (connection_ctor is_server ua cout))).
    cbv zeta in IH. destruct IH as [Hout [Hlen [Hsrv [Hua Hall]]]].
    split; [|split; [|split; [|split]]].
    + rewrite Hout. unfold connection_ctor. cbn [snd List.length lines].
      rewrite !string_app_assoc. reflexivity.
    + rewrite Hlen. unfold connection_ctor. cbn [snd List.length].
      rewrite !string_app_length. simpl String.length. lia.
    + cbn [map fst]. rewrite Hsrv. reflexivity.
    + cbn [map snd fst]. rewrite Hua. reflexivity.
    + constructor; [split; reflexivity | exact Hall].
Qed.

(** ** Enumerator values *)

(** X4: in each of the three enumerations distinct enumerators have
    distinct values, and the values are exactly the integers from 0 to the
    last enumerator: 0..3 for the external state, 0..7 for the internal
    state, 0..5 for the fail status. *)
Theorem enumerator_values_distinct_and_dense :
  (forall a b : state.value, state.to_Z a = state.to_Z b <-> a = b)
  /\ (forall n, (exists v, state.to_Z v = n) <-> 0 <= n <= 3)
  /\ (forall a b : internal_state.value,
        internal_state.to_Z a = internal_state.to_Z b <-> a = b)
  /\ (forall n, (exists v, internal_state.to_Z v = n) <-> 0 <= n <= 7)
  /\ (forall a b : fail.status.value,
        fail.status.to_Z a = fail.status.to_Z b <-> a = b)
  /\ (forall n, (exists v, fail.status.to_Z v = n) <-> 0 <= n <= 5).
Proof.
  split; [|split; [|split; [|split; [|split]]]].
  - intros a b. split; [|intros ->; reflexivity].
    destruct a, b; simpl; intros H; first [reflexivity | discriminate].
  - intros n. split.
    + intros [v <-]. destruct v; simpl; lia.
    + intros H.
      assert (Hn : n = 0 \/ n = 1 \/ n = 2 \/ n = 3) by lia.
      destruct Hn as [-> | [-> | [-> | ->]]];
        [ exists state.CONNECTING | exists state.OPEN
        | exists state.CLOSING | exists state.CLOSED ]; reflexivity.
  - intros a b. split; [|intros ->; reflexivity].
    destruct a, b; simpl; intros H; first [reflexivity | discriminate].
  - intros n. split.
    + intros [v <-]. destruct v; simpl; lia.
    + intros H.
      assert (Hn : n = 0 \/ n = 1 \/ n = 2 \/ n = 3 \/ n = 4 \/ n = 5
                   \/ n = 6 \/ n = 7) by lia.
      destruct Hn as [->|[->|[->|[->|[-> | [-> | [-> | ->]]]]]]];
        [ exists internal_state.USER_INIT
        | exists internal_state.TRANSPORT_INIT
        | exists internal_state.READ_HTTP_REQUEST
        | exists internal_state.WRITE_HTTP_REQUEST
        | exists internal_state.READ_HTTP_RESPONSE
        | exists internal_state.WRITE_HTTP_RESPONSE
        | exists internal_state.PROCESS_HTTP_REQUEST
        | exists internal_state.PROCESS_CONNECTION ]; reflexivity.
  - intros a b. split; [|intros ->; reflexivity].
    destruct a, b; simpl; intros H; first [reflexivity | discriminate].
  - intros n. split.
    + intros [v <-]. destruct v; simpl; lia.
    + intros H.
      assert (Hn : n = 0 \/ n = 1 \/ n = 2 \/ n = 3 \/ n = 4 \/ n = 5)
        by lia.
      destruct Hn as [->|[->|[-> | [-> | [-> | ->]]]]];
        [ exists fail.status.GOOD | exists fail.status.SYSTEM
        | exists fail.status.WEBSOCKET | exists fail.status.UNKNOWN
        | exists fail.status.TIMEOUT_TLS | exists fail.status.TIMEOUT_WS ];
        reflexivity.
Qed.

(** ** The two configurations of the version list *)

(** X5: with and without initializer lists the header defines the same
    [VERSIONS_SUPPORTED]: the iterator pair [HELPER, HELPER+4] spans the
    whole array and nothing beyond it.  The list is strictly increasing, so
    it has no duplicates and its last element is its highest, and it holds
    no negative version. *)
Theorem versions_supported_same_in_both_configurations :
  vector_from_range HELPER 0 4 = Some VERSIONS_SUPPORTED
  /\ VERSIONS_SUPPORTED = VERSIONS_SUPPORTED_INITIALIZER_LISTS
  /\ VERSIONS_SUPPORTED = HELPER
  /\ vector_from_range HELPER 0 5 = None
  /\ StronglySorted Z.lt VERSIONS_SUPPORTED
  /\ NoDup VERSIONS_SUPPORTED
  /\ Forall (fun v => 0 <= v) VERSIONS_SUPPORTED.
Proof.
  unfold VERSIONS_SUPPORTED, VERSIONS_SUPPORTED_INITIALIZER_LISTS, HELPER.
  simpl.
  repeat split; try reflexivity.
  - repeat constructor.
  - repeat constructor; simpl; intuition discriminate.
  - repeat constructor; lia.
Qed.

(** ** The handler base class *)

(** X6: a handler that overrides nothing never changes the connection and
    never refuses: over any sequence of callbacks the connection stays as it
    was, and every [validate] and every [on_ping] in the sequence answers
    [true]. *)
Theorem handler_base_is_inert :
  forall (cbs : list callback) (con : connection),
    snd (invoke_all handler_base cbs con) = con
    /\ fst (invoke_all handler_base cbs con)
       = repeat true (List.length (filter gives_answer cbs)).
Proof.
  induction cbs as [|cb rest IH]; intros con.
  - split; reflexivity.
  - cbn [invoke_all].
    assert (Hsame : snd (invoke handler_base cb con) = con)
      by (destruct cb; reflexivity).
    rewrite Hsame. destruct (IH con) as [Hcon Hans].
    split; [exact Hcon|].
    cbn [fst snd]. rewrite Hans.
    destruct cb; reflexivity.
Qed.

(** ** Declarations *)

(** X7: every public member function with a [lib::error_code] out-parameter
    returns [void] and is the overload of a raising member function of the
    same name: it takes that function's parameters, in the same order,
    followed by the out-parameter. *)
Theorem error_code_overload_extends_raising_one :
  forall d : declaration,
    In d public_interface ->
    has_ec_out_param d = true ->
    decl_return d = "void"
    /\ exists r,
         In r public_interface
         /\ raising_form r = true
         /\ decl_name r = decl_name d
         /\ decl_return r = decl_return d
         /\ decl_params d = decl_params r ++ ["lib::error_code &"].
Proof.
  intros d Hin Hec. unfold public_interface in Hin. simpl in Hin.
  repeat (destruct Hin as [<- | Hin]; [try discriminate Hec|]);
    try contradiction.
  - split; [reflexivity|].
    exists (mk_declaration "pong" "void" ["const std::string &"]).
    split; [unfold public_interface; simpl; tauto|].
    repeat split; reflexivity.
  - split; [reflexivity|].
    exists (mk_declaration "close" "void"
              ["const close::status::value"; "const std::string &"]).
    split; [unfold public_interface; simpl; tauto|].
    repeat split; reflexivity.
Qed.

(** The exception free variant of [pong]. *)
Lemma error_code_overload_extends_raising_one_witness :
  exists r,
    In r public_interface
    /\ raising_form r = true
    /\ decl_name r = "pong"
    /\ decl_params r ++ ["lib::error_code &"]
       = ["const std::string &"; "lib::error_code &"].
Proof.
  destruct (error_code_overload_extends_raising_one
              (mk_declaration "pong" "void"
                 ["const std::string &"; "lib::error_code &"]))
    as [_ [r [Hin [Hraise [Hname [_ Hparams]]]]]].
  - unfold public_interface. simpl. tauto.
  - reflexivity.
  - exists r. repeat split; try assumption. symmetry. exact Hparams.
Defined.



